(** * NCI PDC MCP server

    A shallow embedding of [src/index.ts]: the GraphQL forwarder
    [NciPdcMCP.executePdcGraphQLQuery], the handler of the tool
    [pdc_graphql_query] that calls it, and the default export's [fetch]
    router, with the parts of the JavaScript runtime they call
    ([String.prototype.slice], [includes], [startsWith], [fetch],
    [Response.json], [Response.text], [JSON.stringify]).

    JavaScript strings are modelled by [string]; one [ascii] stands for one
    UTF-16 code unit, which is the unit [slice], [includes] and [length]
    count in. *)

From Stdlib Require Import String Ascii List Bool Arith NArith ZArith QArith Lia.
From Stdlib Require Import DecimalString.
Import ListNotations.
Local Open Scope list_scope.
Local Open Scope string_scope.

(** ** JavaScript strings *)

(** [s.startsWith(search)]. *)
Fixpoint startsWith (s search : string) {struct search} : bool :=
  match search with
  | EmptyString => true
  | String c search' =>
      match s with
      | EmptyString => false
      | String d s' => Ascii.eqb c d && startsWith s' search'
      end
  end.

(** [s.includes(search)]: [search] starts at some position of [s]. *)
Fixpoint includes (s search : string) : bool :=
  startsWith s search ||
  match s with
  | EmptyString => false
  | String _ s' => includes s' search
  end.

(** [s.slice(start, end)] of ECMAScript: negative indices count from the
    end, both indices are clamped to [0, length], an empty span gives the
    empty string. *)
Definition slice (s : string) (start end_ : Z) : string :=
  let len := Z.of_nat (String.length s) in
  let from := if (start <? 0)%Z then Z.max (len + start) 0 else Z.min start len in
  let to := if (end_ <? 0)%Z then Z.max (len + end_) 0 else Z.min end_ len in
  let span := Z.max (to - from) 0 in
  substring (Z.to_nat from) (Z.to_nat span) s.

(** The text a template literal gives for a non-negative integer such as
    [response.status]: its decimal digits. *)
Definition Number_toString (n : N) : string :=
  NilZero.string_of_uint (N.to_uint n).

(** A truthy string is a non-empty one. *)
Definition truthy (s : string) : bool :=
  match s with
  | EmptyString => false
  | String _ _ => true
  end.

(** The double quote and the line feed, for the texts that contain them. *)
Definition dquote : string := String "034"%char EmptyString.
Definition LF : string := String "010"%char EmptyString.

(** ** JavaScript values that JSON can carry *)

#[warnings="-register-all"]
Inductive JSValue : Type :=
| JNull
| JBool (b : bool)
| JNumber (x : Q)
| JString (s : string)
| JArray (items : list JSValue)
| JObject (props : list (string * JSValue)).

(** Own properties of an object literal, in insertion order. *)
Fixpoint lookup (key : string) (props : list (string * JSValue)) : option JSValue :=
  match props with
  | [] => None
  | (k, v) :: rest => if String.eqb k key then Some v else lookup key rest
  end.

(** [v.key]; [None] stands for [undefined]. *)
Definition get_prop (key : string) (v : JSValue) : option JSValue :=
  match v with
  | JObject props => lookup key props
  | _ => None
  end.

(** [v[i]] on an array. *)
Definition get_index (i : nat) (v : JSValue) : option JSValue :=
  match v with
  | JArray items => nth_error items i
  | _ => None
  end.

(** [envelope.errors[0].extensions[key]]. *)
Definition error_extension (key : string) (envelope : JSValue) : option JSValue :=
  match get_prop "errors" envelope with
  | Some errors =>
      match get_index 0 errors with
      | Some first =>
          match get_prop "extensions" first with
          | Some extensions => get_prop key extensions
          | None => None
          end
      | None => None
      end
  | None => None
  end.

(** The number value of an HTTP status. *)
Definition JNumber_of_N (n : N) : JSValue := JNumber (inject_Z (Z.of_N n)).

(** ** Exceptions and completions *)

(** A thrown value: an [Error] instance with its [message], or any other
    value, kept as the text [String(value)] gives for it. *)
Inductive Thrown : Type :=
| ErrorObject (message : string)
| NonError (string_form : string).

(** How an awaited call ends: with a value, or by throwing. *)
Inductive Completion (A : Type) : Type :=
| Normal (a : A)
| Abrupt (e : Thrown).
Arguments Normal {A} a.
Arguments Abrupt {A} e.

(** ** The Fetch API as the forwarder uses it *)

(** The [init] argument of [fetch(url, init)] together with the URL. *)
Record Request : Type := {
  req_url : string;
  req_method : string;
  req_headers : list (string * string);
  req_body : string
}.

(** What the forwarder reads of a [Response]: the status, the header
    lookup [headers.get(name)] ([None] is [null]) and the decoded body. *)
Record Response : Type := {
  status : N;
  headers_get : string -> option string;
  body : string
}.

(** The null body statuses of the Fetch standard: [fetch] gives a response
    with one of these a null body, whose text is empty, which can be read
    any number of times and which never counts as used. *)
Definition null_body_status (st : N) : bool :=
  match st with
  | 101%N | 103%N | 204%N | 205%N | 304%N => true
  | _ => false
  end.
Arguments null_body_status : simpl never.

(** [response.ok]: the status is in the range 200 to 299. *)
Definition Response_ok (r : Response) : bool :=
  ((200 <=? status r) && (status r <=? 299))%N.

(** The promise [fetch] returns is rejected (no response: connection
    refused, DNS or TLS failure, timeout) or fulfilled with a response of
    any status. *)
Inductive FetchOutcome : Type :=
| Rejected (e : Thrown)
| Fulfilled (r : Response).

(** A body that is not null is a stream that is read once. What a later
    [json()] or [text()] on the same response does is the runtime's: the
    Fetch standard rejects the call with a [TypeError], whose message
    differs between runtimes; an object that keeps its text hands it out
    again. *)
Inductive ConsumedBody : Type :=
| RejectsWith (e : Thrown)
| Replays.

(** The state a call of the forwarder acts on: the requests issued so far,
    whether the body of the response in hand was read, and the lines written
    with [console.error]. *)
Record World : Type := {
  sent : list Request;
  bodyUsed : bool;
  log : list string
}.

(** Computations that read and write the world and may throw; an exception
    keeps the changes made before it. *)
Definition M (A : Type) : Type := World -> Completion A * World.

Definition ret {A : Type} (a : A) : M A := fun w => (Normal a, w).

Definition bind {A B : Type} (m : M A) (k : A -> M B) : M B :=
  fun w =>
    match m w with
    | (Normal a, w') => k a w'
    | (Abrupt e, w') => (Abrupt e, w')
    end.

(** [try { body } catch (e) { handler e }]. *)
Definition try_catch {A : Type} (body : M A) (handler : Thrown -> M A) : M A :=
  fun w =>
    match body w with
    | (Normal a, w') => (Normal a, w')
    | (Abrupt e, w') => handler e w'
    end.

Notation "x <- m ;; k" := (bind m (fun x => k))
  (at level 61, m at next level, right associativity).

(** [console.error(line)]. *)
Definition console_error (line : string) : M unit :=
  fun w =>
    (Normal tt,
     {| sent := sent w; bodyUsed := bodyUsed w; log := (log w ++ [line])%list |}).

(** The world before the call: nothing sent, no body read, nothing logged. *)
Definition initial : World := {| sent := []; bodyUsed := false; log := [] |}.

(** ** The transport router: the default export *)

Module Worker.

(** The response the router builds itself. *)
Record Reply : Type := {
  reply_status : N;
  reply_headers : list (string * string);
  reply_body : string
}.

(** What [fetch] returns: the response of the SSE transport mounted at a
    path ([NciPdcMCP.serveSSE(mount).fetch(request, env, ctx)], the agent
    framework's), or a response of its own. *)
Inductive Routed : Type :=
| ServeSSE (mount : string)
| Respond (r : Reply).

(** The body of the fallback response. *)
Definition not_found_body : string :=
  "NCI PDC MCP Server - Path not found." ++ LF ++
  "Available MCP paths:" ++ LF ++
  "- /sse (for Server-Sent Events transport)".

(** [fetch(request, env, ctx)], as a function of
    [new URL(request.url).pathname], the one thing it reads. *)
Definition fetch (pathname : string) : M Routed :=
  if String.eqb pathname "/sse" || startsWith pathname "/sse/" then
    ret (ServeSSE "/sse")
  else
    _ <- console_error ("NCI PDC MCP Server. Requested path " ++ pathname
                        ++ " not found. Listening for SSE on /sse.") ;;
    ret (Respond {| reply_status := 404;
                    reply_headers := [("Content-Type", "text/plain")];
                    reply_body := not_found_body |}).

End Worker.

(** ** Envelopes, and the envelopes the specification words describe *)

(** [{ errors: [{ message, extensions }] }]. *)
Definition error_envelope (message : string) (extensions : list (string * JSValue)) : JSValue :=
  JObject [("errors",
            JArray [JObject [("message", JString message);
                             ("extensions", JObject extensions)]])].

(** A header value as a JavaScript value: [null] when the header is absent. *)
Definition JS_of_header (h : option string) : JSValue :=
  match h with
  | Some s => JString s
  | None => JNull
  end.

(** The text a template literal gives for a header value. *)
Definition text_of_header (h : option string) : string :=
  match h with
  | Some s => s
  | None => "null"
  end.

(** The HTTP error envelope in the specification's words: message
    ["API Error <status>"]. *)
Definition spec_http_error_envelope (st : N) (responseBody : JSValue) : JSValue :=
  error_envelope ("API Error " ++ Number_toString st)
    [("statusCode", JNumber_of_N st); ("responseBody", responseBody)].

(** The non-JSON envelope in the specification's words: message
    ["API Error <status>: Non-JSON response received."]. *)
Definition spec_non_json_envelope (st : N) (contentType : option string) (text : string) : JSValue :=
  error_envelope ("API Error " ++ Number_toString st ++ ": Non-JSON response received.")
    [("statusCode", JNumber_of_N st);
     ("contentType", JS_of_header contentType);
     ("responseText", JString (substring 0 1000 text))].

(** The parse failure envelope in the specification's words: message
    ["API Error <status>: Failed to parse JSON response."]. *)
Definition spec_parse_failure_envelope (st : N) (text : string) : JSValue :=
  error_envelope ("API Error " ++ Number_toString st ++ ": Failed to parse JSON response.")
    [("statusCode", JNumber_of_N st);
     ("responseText", JString (substring 0 1000 text))].

(** The message the [catch] block gives a thrown value. *)
Definition message_of (e : Thrown) : string :=
  match e with
  | ErrorObject message => message
  | NonError string_form => string_form
  end.

(** ** Doubles for the runtime, used by the examples *)

(** The document [{"data": {"x": 1}}] and the value it denotes. *)
Definition data_x1_text : string :=
  "{" ++ dquote ++ "data" ++ dquote ++ ": {" ++ dquote ++ "x" ++ dquote ++ ": 1}}".
Definition data_x1 : JSValue :=
  JObject [("data", JObject [("x", JNumber 1)])].

(** The document [{"message": "boom"}] and the value it denotes. *)
Definition boom_text : string :=
  "{" ++ dquote ++ "message" ++ dquote ++ ": " ++ dquote ++ "boom" ++ dquote ++ "}".
Definition boom : JSValue :=
  JObject [("message", JString "boom")].

(** A parser double: it knows the two documents above and throws a
    [SyntaxError] on the texts the examples use that are not JSON. *)
Definition sample_parse (text : string) : Completion JSValue :=
  if String.eqb text data_x1_text then Normal data_x1
  else if String.eqb text boom_text then Normal boom
  else Abrupt (ErrorObject "Unexpected token < in JSON at position 0").

(** A serializer double; the upstream doubles below never read the request. *)
Definition sample_stringify (v : JSValue) : string := "<request body>".

(** A double for the indented serializer of the tool's output. *)
Definition sample_indented (v : JSValue) : string := "<indented result>".

(** The header lookup of a response with one content-type header. *)
Definition content_type_only (value : string) (name : string) : option string :=
  if String.eqb name "content-type" then Some value else None.

(** The header lookup of a response without headers. *)
Definition no_headers (name : string) : option string := None.

(** An upstream that answers every request with the same response. *)
Definition answers (r : Response) (req : Request) : FetchOutcome := Fulfilled r.

(** An upstream that cannot be reached. *)
Definition unreachable (e : Thrown) (req : Request) : FetchOutcome := Rejected e.

(** The [TypeError] of a runtime that refuses to read a body twice. *)
Definition body_used : Thrown :=
  ErrorObject "Body has already been used. It can only be used once.".

(** The responses the examples use. *)
Definition json_200 : Response :=
  {| status := 200;
     headers_get := content_type_only "application/json";
     body := data_x1_text |}.

Definition json_500 : Response :=
  {| status := 500;
     headers_get := content_type_only "application/json";
     body := boom_text |}.

Definition html_200 : Response :=
  {| status := 200;
     headers_get := content_type_only "text/html";
     body := "<html><body>Service unavailable</body></html>" |}.

Definition bare_502 : Response :=
  {| status := 502;
     headers_get := no_headers;
     body := "Bad Gateway" |}.


Definition broken_json_200 : Response :=
  {| status := 200;
     headers_get := content_type_only "application/json; charset=utf-8";
     body := "<html>oops</html>" |}.

(** A response without a body that still declares JSON. *)
Definition json_204 : Response :=
  {| status := 204;
     headers_get := content_type_only "application/json";
     body := "" |}.

(** A text of [n] letters. *)
Fixpoint letters (n : nat) : string :=
  match n with
  | O => EmptyString
  | S n' => String "a"%char (letters n')
  end.

(** Responses with a body of 1001 letters: one that is not declared as
    JSON, one that is declared as JSON and is not JSON. *)
Definition long_html_200 : Response :=
  {| status := 200;
     headers_get := content_type_only "text/html";
     body := letters 1001 |}.

Definition long_broken_json_503 : Response :=
  {| status := 503;
     headers_get := content_type_only "application/json";
     body := letters 1001 |}.

(** The [TypeError] of Node for the same refusal. *)
Definition body_unusable : Thrown :=
  ErrorObject "Body is unusable: Body has already been read".

(** ** The forwarder *)

Section Forwarder.

(** The runtime the class runs on: [JSON.parse] as [response.json()] applies
    it to the body text, [JSON.stringify], the network behind [fetch], and
    what reading a consumed body does. *)
Variable JSON_parse : string -> Completion JSValue.
Variable JSON_stringify : JSValue -> string.
Variable upstream : Request -> FetchOutcome.
Variable consumed : ConsumedBody.

(** [await fetch(url, init)]: the request goes out; the promise is rejected,
    or fulfilled with a response whose body is unread. *)
Definition fetch (req : Request) : M Response :=
  fun w =>
    match upstream req with
    | Rejected e =>
        (Abrupt e,
         {| sent := (sent w ++ [req])%list; bodyUsed := bodyUsed w; log := log w |})
    | Fulfilled r =>
        (Normal r,
         {| sent := (sent w ++ [req])%list; bodyUsed := false; log := log w |})
    end.

(** [await response.text()]. A null body is read without being used up. *)
Definition Response_text (r : Response) : M string :=
  fun w =>
    if null_body_status (status r) then (Normal (body r), w)
    else if bodyUsed w then
      match consumed with
      | RejectsWith e => (Abrupt e, w)
      | Replays => (Normal (body r), w)
      end
    else (Normal (body r), {| sent := sent w; bodyUsed := true; log := log w |}).

(** [await response.json()]: reads the body and parses its text. A null
    body is read without being used up. *)
Definition Response_json (r : Response) : M JSValue :=
  fun w =>
    if null_body_status (status r) then (JSON_parse (body r), w)
    else if bodyUsed w then
      match consumed with
      | RejectsWith e => (Abrupt e, w)
      | Replays => (JSON_parse (body r), w)
      end
    else (JSON_parse (body r), {| sent := sent w; bodyUsed := true; log := log w |}).

Definition PDC_GRAPHQL_ENDPOINT : string := "https://pdc.cancer.gov/graphql".

(** [contentType && contentType.includes("application/json")]. *)
Definition declares_json (contentType : option string) : bool :=
  match contentType with
  | None => false
  | Some ct => truthy ct && includes ct "application/json"
  end.

(** [executePdcGraphQLQuery(query, variables)]. A [return] inside the inner
    [catch] leaves the function: the inner [try] statement yields [inr] of
    the returned value there and [inl] of [responseBody] when it falls
    through. *)
Definition executePdcGraphQLQuery
  (query : string) (variables : option (list (string * JSValue))) : M JSValue :=
  try_catch
    (let headers :=
       [("Content-Type", "application/json");
        ("User-Agent",
         "MCPNciPdcServer/0.1.0 (ModelContextProtocol; +https://modelcontextprotocol.io)")] in
     let bodyData := [("query", JString query)] in
     let bodyData :=
       match variables with
       | Some vars => (bodyData ++ [("variables", JObject vars)])%list
       | None => bodyData
       end in
     _ <- console_error ("Making GraphQL request to: " ++ PDC_GRAPHQL_ENDPOINT) ;;
     response <- fetch {| req_url := PDC_GRAPHQL_ENDPOINT;
                          req_method := "POST";
                          req_headers := headers;
                          req_body := JSON_stringify (JObject bodyData) |} ;;
     _ <- console_error ("NCI PDC API response status: "
                         ++ Number_toString (status response)) ;;
     let contentType := headers_get response "content-type" in
     if declares_json contentType then
       parsed <-
         try_catch
           (responseBody <- Response_json response ;;
            ret (inl responseBody))
           (fun e =>
              errorText <- Response_text response ;;
              _ <- console_error
                     ("NCI PDC API response indicates JSON but failed to parse. Status: "
                      ++ Number_toString (status response)
                      ++ ", Body: " ++ slice errorText 0 500) ;;
              ret (inr
                (JObject [("errors", JArray [JObject [
                   ("message",
                    JString ("NCI PDC API Error " ++ Number_toString (status response)
                             ++ ": Failed to parse JSON response."));
                   ("extensions", JObject [
                      ("statusCode", JNumber_of_N (status response));
                      ("responseText", JString (slice errorText 0 1000))])]])]))) ;;
       match parsed with
       | inr returned => ret returned
       | inl responseBody =>
           if negb (Response_ok response) then
             _ <- console_error
                    ("NCI PDC API HTTP Error " ++ Number_toString (status response)
                     ++ ": " ++ JSON_stringify responseBody) ;;
             ret (JObject [("errors", JArray [JObject [
                    ("message",
                     JString ("NCI PDC API HTTP Error " ++ Number_toString (status response)));
                    ("extensions", JObject [
                       ("statusCode", JNumber_of_N (status response));
                       ("responseBody", responseBody)])]])])
           else ret responseBody
       end
     else
       errorText <- Response_text response ;;
       _ <- console_error
              ("NCI PDC API response is not JSON. Status: "
               ++ Number_toString (status response)
               ++ ", Content-Type: " ++ text_of_header contentType
               ++ ", Body: " ++ slice errorText 0 500) ;;
       ret (JObject [("errors", JArray [JObject [
              ("message",
               JString ("NCI PDC API Error " ++ Number_toString (status response)
                        ++ ": Non-JSON response received."));
              ("extensions", JObject [
                 ("statusCode", JNumber_of_N (status response));
                 ("contentType", JS_of_header contentType);
                 ("responseText", JString (slice errorText 0 1000))])]])]))
    (fun error =>
       _ <- console_error
              ("Client-side error during NCI PDC GraphQL request: "
               ++ match error with
                  | ErrorObject message => message
                  | NonError string_form => string_form
                  end) ;;
       let errorMessage :=
         match error with
         | ErrorObject message => message
         | NonError string_form => string_form
         end in
       ret (JObject [("errors", JArray [JObject [
              ("message", JString errorMessage);
              ("extensions", JObject [("clientError", JBool true)])]])])).

(** The request of a call, as [executePdcGraphQLQuery] builds it. *)
Definition request_of (query : string) (variables : option (list (string * JSValue))) : Request :=
  {| req_url := PDC_GRAPHQL_ENDPOINT;
     req_method := "POST";
     req_headers :=
       [("Content-Type", "application/json");
        ("User-Agent",
         "MCPNciPdcServer/0.1.0 (ModelContextProtocol; +https://modelcontextprotocol.io)")];
     req_body :=
       JSON_stringify
         (JObject (("query", JString query) ::
                   match variables with
                   | Some vars => [("variables", JObject vars)]
                   | None => []
                   end)) |}.

(** The value a call returns, started in world [w]. *)
Definition result_of (query : string) (variables : option (list (string * JSValue)))
  (w : World) : Completion JSValue :=
  fst (executePdcGraphQLQuery query variables w).

(** [JSON.stringify(value, null, 2)], the runtime's indented serializer. *)
Variable JSON_stringify_indented : JSValue -> string.

(** The handler [init] registers for the tool [pdc_graphql_query]: it logs
    the first 200 characters of the query and, when variables are given, the
    first 150 characters of their serialization, calls the forwarder and
    wraps the result as one text block. *)
Definition pdc_graphql_query
  (query : string) (variables : option (list (string * JSValue))) : M JSValue :=
  _ <- console_error ("Executing pdc_graphql_query with query: "
                      ++ slice query 0 200 ++ "...") ;;
  _ <- match variables with
       | Some vars =>
           console_error ("With variables: "
                          ++ slice (JSON_stringify (JObject vars)) 0 150 ++ "...")
       | None => ret tt
       end ;;
  result <- executePdcGraphQLQuery query variables ;;
  ret (JObject [("content",
                 JArray [JObject [("type", JString "text");
                                  ("text", JString (JSON_stringify_indented result))]])]).

(** The lines a call of the forwarder writes to the log, by the outcome of
    the request. *)
Definition logged (query : string) (variables : option (list (string * JSValue)))
  : list string :=
  ("Making GraphQL request to: " ++ PDC_GRAPHQL_ENDPOINT) ::
  match upstream (request_of query variables) with
  | Rejected e =>
      ["Client-side error during NCI PDC GraphQL request: " ++ message_of e]
  | Fulfilled r =>
      ("NCI PDC API response status: " ++ Number_toString (status r)) ::
      (if declares_json (headers_get r "content-type") then
         match JSON_parse (body r) with
         | Normal responseBody =>
             if Response_ok r then []
             else ["NCI PDC API HTTP Error " ++ Number_toString (status r)
                   ++ ": " ++ JSON_stringify responseBody]
         | Abrupt _ =>
             if null_body_status (status r) then
               ["NCI PDC API response indicates JSON but failed to parse. Status: "
                ++ Number_toString (status r)
                ++ ", Body: " ++ slice (body r) 0 500]
             else
               match consumed with
               | RejectsWith e =>
                   ["Client-side error during NCI PDC GraphQL request: " ++ message_of e]
               | Replays =>
                   ["NCI PDC API response indicates JSON but failed to parse. Status: "
                    ++ Number_toString (status r)
                    ++ ", Body: " ++ slice (body r) 0 500]
               end
         end
       else
         ["NCI PDC API response is not JSON. Status: "
          ++ Number_toString (status r)
          ++ ", Content-Type: " ++ text_of_header (headers_get r "content-type")
          ++ ", Body: " ++ slice (body r) 0 500])
  end.

(** Runs a call through every branch of the forwarder: the variables given
    or not, the request rejected or answered, the content-type, the parse,
    the second read of the body, the status. *)
Ltac run_forwarder variables :=
  unfold executePdcGraphQLQuery, request_of, try_catch, bind, fetch,
    console_error, ret;
  destruct variables as [?vars|]; simpl;
  match goal with
  | |- context [upstream ?req] => destruct (upstream req) as [?e|?r]
  end;
  try (match goal with e : Thrown |- _ => destruct e; reflexivity end);
  match goal with
  | r : Response |- _ =>
      unfold Response_json, Response_text;
      destruct (null_body_status (status r));
      (destruct (declares_json (headers_get r "content-type")); simpl;
       [ destruct (JSON_parse (body r)) as [?responseBody|?e]; simpl;
         [ destruct (Response_ok r); reflexivity
         | first
             [ reflexivity
             | destruct consumed as [?err|];
               [ match goal with err : Thrown |- _ => destruct err end | ];
               reflexivity ] ]
       | reflexivity ])
  end.

(** The same walk, closing each branch with [finish]. *)
Ltac walk_forwarder variables finish :=
  unfold executePdcGraphQLQuery, request_of, try_catch, bind, fetch,
    console_error, ret;
  destruct variables as [?vars|]; simpl;
  match goal with
  | |- context [upstream ?req] => destruct (upstream req) as [?e|?r]
  end;
  try (match goal with e : Thrown |- _ => destruct e; finish end);
  match goal with
  | r : Response |- _ =>
      unfold Response_json, Response_text;
      destruct (null_body_status (status r));
      (destruct (declares_json (headers_get r "content-type")); simpl;
       [ destruct (JSON_parse (body r)) as [?responseBody|?e]; simpl;
         [ destruct (Response_ok r); finish
         | first
             [ finish
             | destruct consumed as [?err|];
               [ match goal with err : Thrown |- _ => destruct err end | ];
               finish ] ]
       | finish ])
  end.

(** ** Facts about the string operations *)

Example Number_toString_status :
  Number_toString 200 = "200" /\ Number_toString 404 = "404" /\ Number_toString 0 = "0".
Proof. repeat split. Qed.

Example slice_examples :
  slice "abcdef" 0 4 = "abcd" /\ slice "abc" 0 1000 = "abc" /\
  slice "abcdef" (-2) 1000 = "ef" /\ slice "abcdef" 4 2 = "".
Proof. repeat split. Qed.

Example includes_examples :
  includes "application/json; charset=utf-8" "application/json" = true /\
  includes "text/json" "application/json" = false /\
  includes "Application/JSON" "application/json" = false.
Proof. repeat split. Qed.

Lemma startsWith_app (search rest : string) :
  startsWith (search ++ rest) search = true.
Proof.
  induction search as [|c search IH]; simpl.
  - reflexivity.
  - rewrite Ascii.eqb_refl. exact IH.
Qed.

Lemma startsWith_spec (s search : string) :
  startsWith s search = true <-> exists rest, s = search ++ rest.
Proof.
  split.
  - revert s. induction search as [|c search IH]; intros s H.
    + exists s. reflexivity.
    + destruct s as [|d s]; simpl in H; [discriminate|].
      apply andb_true_iff in H. destruct H as [Hc Hs].
      apply Ascii.eqb_eq in Hc. subst d.
      destruct (IH s Hs) as [rest ->].
      exists rest. reflexivity.
  - intros [rest ->]. apply startsWith_app.
Qed.

Lemma includes_here (s search : string) :
  startsWith s search = true -> includes s search = true.
Proof.
  intros H. destruct s; simpl in *; rewrite H; reflexivity.
Qed.

Lemma includes_spec (s search : string) :
  includes s search = true <-> exists pre post, s = pre ++ search ++ post.
Proof.
  split.
  - induction s as [|c s IH]; simpl; intros H.
    + rewrite orb_false_r in H.
      apply startsWith_spec in H. destruct H as [rest H].
      exists EmptyString, rest. exact H.
    + apply orb_true_iff in H. destruct H as [H|H].
      * apply (startsWith_spec (String c s)) in H. destruct H as [rest H].
        exists EmptyString, rest. exact H.
      * destruct (IH H) as (pre & post & ->).
        exists (String c pre), post. reflexivity.
  - intros (pre & post & ->).
    induction pre as [|c pre IH].
    + apply includes_here. exact (startsWith_app search post).
    + simpl. rewrite IH. apply orb_true_r.
Qed.

Lemma substring_0_length (n : nat) (s : string) :
  String.length (substring 0 n s) = Nat.min n (String.length s).
Proof.
  revert s. induction n as [|n IH]; intros [|c s]; simpl; try reflexivity.
  rewrite IH. reflexivity.
Qed.

Lemma substring_0_min (n : nat) (s : string) :
  substring 0 (Nat.min (String.length s) n) s = substring 0 n s.
Proof.
  revert s. induction n as [|n IH]; intros [|c s]; simpl; try reflexivity.
  rewrite IH. reflexivity.
Qed.

Lemma substring_0_prefix (n : nat) (s : string) :
  exists rest, s = substring 0 n s ++ rest.
Proof.
  revert s. induction n as [|n IH]; intros [|c s]; simpl.
  - exists EmptyString. reflexivity.
  - exists (String c s). reflexivity.
  - exists EmptyString. reflexivity.
  - destruct (IH s) as [rest H]. exists rest. rewrite <- H. reflexivity.
Qed.

(** [s.slice(0, n)] is the first [n] characters of [s], all of [s] when it
    is shorter. *)
Lemma slice_0 (s : string) (n : nat) :
  slice s 0 (Z.of_nat n) = substring 0 n s.
Proof.
  unfold slice.
  replace (0 <? 0)%Z with false by reflexivity.
  destruct (Z.ltb_spec (Z.of_nat n) 0) as [Hneg|_]; [lia|].
  rewrite Z.min_l by lia. rewrite Z.sub_0_r.
  rewrite Z.max_l by lia.
  rewrite <- Nat2Z.inj_min, Nat2Z.id. simpl Z.to_nat.
  rewrite Nat.min_comm. apply substring_0_min.
Qed.

Lemma slice_0_1000 (s : string) :
  slice s 0 1000 = substring 0 1000 s.
Proof.
  change 1000%Z with (Z.of_nat 1000). apply slice_0.
Qed.

(** ** The paths of the forwarder *)

(** What a call returns, by the outcome of the request. *)
Lemma executePdcGraphQLQuery_paths query variables w :
  result_of query variables w =
  match upstream (request_of query variables) with
  | Rejected e =>
      Normal (error_envelope (message_of e) [("clientError", JBool true)])
  | Fulfilled r =>
      Normal
        (if declares_json (headers_get r "content-type") then
           match JSON_parse (body r) with
           | Normal responseBody =>
               if Response_ok r then responseBody
               else
                 error_envelope
                   ("NCI PDC API HTTP Error " ++ Number_toString (status r))
                   [("statusCode", JNumber_of_N (status r));
                    ("responseBody", responseBody)]
           | Abrupt _ =>
               if null_body_status (status r) then
                 error_envelope
                   ("NCI PDC API Error " ++ Number_toString (status r)
                    ++ ": Failed to parse JSON response.")
                   [("statusCode", JNumber_of_N (status r));
                    ("responseText", JString (slice (body r) 0 1000))]
               else
                 match consumed with
                 | RejectsWith e =>
                     error_envelope (message_of e) [("clientError", JBool true)]
                 | Replays =>
                     error_envelope
                       ("NCI PDC API Error " ++ Number_toString (status r)
                        ++ ": Failed to parse JSON response.")
                       [("statusCode", JNumber_of_N (status r));
                        ("responseText", JString (slice (body r) 0 1000))]
                 end
           end
         else
           error_envelope
             ("NCI PDC API Error " ++ Number_toString (status r)
              ++ ": Non-JSON response received.")
             [("statusCode", JNumber_of_N (status r));
              ("contentType", JS_of_header (headers_get r "content-type"));
              ("responseText", JString (slice (body r) 0 1000))])
  end.
Proof.
  unfold result_of. run_forwarder variables.
Qed.

(** A call issues exactly one request, whatever comes back. *)
Lemma executePdcGraphQLQuery_sent query variables w :
  sent (snd (executePdcGraphQLQuery query variables w)) =
  (sent w ++ [request_of query variables])%list.
Proof.
  run_forwarder variables.
Qed.

Lemma Response_ok_iff (r : Response) :
  Response_ok r = true <-> (200 <= status r <= 299)%N.
Proof.
  unfold Response_ok. rewrite andb_true_iff, !N.leb_le. reflexivity.
Qed.

(** A response that does not declare JSON gives the non-JSON envelope,
    whatever its status and body. *)
Lemma result_of_non_json query variables w r :
  upstream (request_of query variables) = Fulfilled r ->
  declares_json (headers_get r "content-type") = false ->
  result_of query variables w =
  Normal (error_envelope
            ("NCI PDC API Error " ++ Number_toString (status r)
             ++ ": Non-JSON response received.")
            [("statusCode", JNumber_of_N (status r));
             ("contentType", JS_of_header (headers_get r "content-type"));
             ("responseText", JString (substring 0 1000 (body r)))]).
Proof.
  intros Hup Hct.
  rewrite executePdcGraphQLQuery_paths, Hup, Hct, slice_0_1000. reflexivity.
Qed.

(** A body declared as JSON that does not parse, in a response without a
    body, on every runtime: the empty text is still there for the inner
    [catch]. *)
Lemma result_of_unparsed_null_body query variables w r e :
  upstream (request_of query variables) = Fulfilled r ->
  declares_json (headers_get r "content-type") = true ->
  JSON_parse (body r) = Abrupt e ->
  null_body_status (status r) = true ->
  result_of query variables w =
  Normal (error_envelope
            ("NCI PDC API Error " ++ Number_toString (status r)
             ++ ": Failed to parse JSON response.")
            [("statusCode", JNumber_of_N (status r));
             ("responseText", JString (substring 0 1000 (body r)))]).
Proof.
  intros Hup Hct Hparse Hnull.
  rewrite executePdcGraphQLQuery_paths, Hup, Hct, Hparse, Hnull, slice_0_1000.
  reflexivity.
Qed.

(** A response with a body, on a runtime that rejects the second read, as
    the Fetch standard has it: [response.json()] has consumed the body, so
    the [response.text()] of the inner [catch] throws, the outer [catch]
    takes over, and the status and the text are lost. *)
Lemma result_of_unparsed_rejected query variables w r e err :
  upstream (request_of query variables) = Fulfilled r ->
  declares_json (headers_get r "content-type") = true ->
  JSON_parse (body r) = Abrupt e ->
  null_body_status (status r) = false ->
  consumed = RejectsWith err ->
  result_of query variables w =
  Normal (error_envelope (message_of err) [("clientError", JBool true)]).
Proof.
  intros Hup Hct Hparse Hnull Hrt.
  rewrite executePdcGraphQLQuery_paths, Hup, Hct, Hparse, Hnull, Hrt. reflexivity.
Qed.

(** ** The claims about the forwarder *)

(** C1: for every query, every optional variables mapping, every upstream
    outcome and every runtime, [executePdcGraphQLQuery] completes normally
    with a value, never with an exception; the value is the parsed body of a
    2xx response declared and parsed as JSON, or else an object
    [{ errors: [{ message, extensions }] }], whose [errors] is an array. *)
Theorem executePdcGraphQLQuery_returns_envelope :
  forall query variables w,
  exists envelope w',
    executePdcGraphQLQuery query variables w = (Normal envelope, w') /\
    ((exists r,
        upstream (request_of query variables) = Fulfilled r /\
        declares_json (headers_get r "content-type") = true /\
        Response_ok r = true /\
        JSON_parse (body r) = Normal envelope)
     \/
     (exists message extensions,
        envelope = error_envelope message extensions /\
        get_prop "errors" envelope =
          Some (JArray [JObject [("message", JString message);
                                 ("extensions", JObject extensions)]]))).
Proof.
  intros query variables w.
  pose proof (executePdcGraphQLQuery_paths query variables w) as Hpaths.
  unfold result_of in Hpaths.
  destruct (executePdcGraphQLQuery query variables w) as [completion w'].
  simpl in Hpaths. subst completion.
  destruct (upstream (request_of query variables)) as [e|r] eqn:Hup.
  - eexists. exists w'. split; [reflexivity|].
    right. eexists. eexists. split; reflexivity.
  - eexists. exists w'. split; [reflexivity|].
    destruct (declares_json (headers_get r "content-type")) eqn:Hct.
    + destruct (JSON_parse (body r)) as [responseBody|e] eqn:Hparse.
      * destruct (Response_ok r) eqn:Hok.
        -- left. exists r. repeat split; assumption || reflexivity.
        -- right. eexists. eexists. split; reflexivity.
      * right.
        destruct (null_body_status (status r)); [|destruct consumed];
          eexists; eexists; split; reflexivity.
    + right. eexists. eexists. split; reflexivity.
Qed.

(** C2: a response with a 2xx status, a content-type that declares JSON and
    a body that parses is answered with the parsed body itself. *)
Theorem pass_through_unmodified :
  forall query variables w r responseBody,
    upstream (request_of query variables) = Fulfilled r ->
    (200 <= status r <= 299)%N ->
    declares_json (headers_get r "content-type") = true ->
    JSON_parse (body r) = Normal responseBody ->
    result_of query variables w = Normal responseBody.
Proof.
  intros query variables w r responseBody Hup Hst Hct Hparse.
  apply Response_ok_iff in Hst.
  rewrite executePdcGraphQLQuery_paths, Hup, Hct, Hparse, Hst. reflexivity.
Qed.

(** C3, amended: a response with a status outside 200..299 whose body is
    declared and parsed as JSON is answered with one error, with message
    ["NCI PDC API HTTP Error <status>"] and extensions
    [{ statusCode: <status>, responseBody: <the parsed body> }]. *)
Theorem http_error_envelope :
  forall query variables w r responseBody,
    upstream (request_of query variables) = Fulfilled r ->
    ~ (200 <= status r <= 299)%N ->
    declares_json (headers_get r "content-type") = true ->
    JSON_parse (body r) = Normal responseBody ->
    result_of query variables w =
    Normal (error_envelope
              ("NCI PDC API HTTP Error " ++ Number_toString (status r))
              [("statusCode", JNumber_of_N (status r));
               ("responseBody", responseBody)]).
Proof.
  intros query variables w r responseBody Hup Hst Hct Hparse.
  rewrite <- Response_ok_iff in Hst. apply not_true_is_false in Hst.
  rewrite executePdcGraphQLQuery_paths, Hup, Hct, Hparse, Hst. reflexivity.
Qed.

(** C4, amended: a response whose content-type does not declare JSON, an
    absent header included, is answered, whatever its status, with one
    error, with message
    ["NCI PDC API Error <status>: Non-JSON response received."] and
    extensions [{ statusCode, contentType, responseText }], where
    [contentType] is the header ([null] when absent) and [responseText] the
    first 1000 characters of the body. *)
Theorem non_json_envelope :
  forall query variables w r,
    upstream (request_of query variables) = Fulfilled r ->
    declares_json (headers_get r "content-type") = false ->
    result_of query variables w =
    Normal (error_envelope
              ("NCI PDC API Error " ++ Number_toString (status r)
               ++ ": Non-JSON response received.")
              [("statusCode", JNumber_of_N (status r));
               ("contentType", JS_of_header (headers_get r "content-type"));
               ("responseText", JString (substring 0 1000 (body r)))]).
Proof.
  intros query variables w r Hup Hct.
  apply result_of_non_json; assumption.
Qed.

(** C6: when the [fetch] call itself throws, the forwarder returns one
    error whose message is the [message] of the thrown [Error], or the
    string form of a thrown value that is not an [Error], and whose
    extensions are exactly [{ clientError: true }]. *)
Theorem client_error_envelope :
  forall query variables w e,
    upstream (request_of query variables) = Rejected e ->
    (forall message, e = ErrorObject message ->
       result_of query variables w =
       Normal (error_envelope message [("clientError", JBool true)])) /\
    (forall string_form, e = NonError string_form ->
       result_of query variables w =
       Normal (error_envelope string_form [("clientError", JBool true)])).
Proof.
  intros query variables w e Hup.
  rewrite executePdcGraphQLQuery_paths, Hup.
  split; intros m ->; reflexivity.
Qed.

(** C8: the call sends one request; its body is the serialization of an
    object whose [query] is the input string itself and which has a
    [variables] property, the given mapping, exactly when one was given. *)
Theorem request_body_fields :
  forall query variables w,
  exists bodyData,
    sent (snd (executePdcGraphQLQuery query variables w)) =
      (sent w ++ [request_of query variables])%list /\
    req_body (request_of query variables) = JSON_stringify (JObject bodyData) /\
    lookup "query" bodyData = Some (JString query) /\
    lookup "variables" bodyData = option_map JObject variables /\
    (lookup "variables" bodyData <> None <-> variables <> None) /\
    (forall key, key <> "query" -> key <> "variables" -> lookup key bodyData = None).
Proof.
  intros query variables w.
  exists (("query", JString query) ::
          match variables with
          | Some vars => [("variables", JObject vars)]
          | None => []
          end).
  split.
  - apply executePdcGraphQLQuery_sent.
  - split; [reflexivity|].
    split; [reflexivity|].
    split; [destruct variables; reflexivity|].
    split.
    + destruct variables; simpl; split; intros H; congruence.
    + intros key Hq Hv.
      apply not_eq_sym in Hq. apply not_eq_sym in Hv.
      apply String.eqb_neq in Hq. apply String.eqb_neq in Hv.
      destruct variables; cbn [lookup]; rewrite Hq; try rewrite Hv; reflexivity.
Qed.


(** ** What a call leaves behind *)

(** The log after a call: the lines it had, then the lines of [logged]. *)
Lemma executePdcGraphQLQuery_log query variables w :
  log (snd (executePdcGraphQLQuery query variables w)) =
  (log w ++ logged query variables)%list.
Proof.
  unfold logged.
  walk_forwarder variables ltac:(simpl; repeat rewrite <- app_assoc; reflexivity).
Qed.

(** The body flag after a call: set when a response with a body arrived. *)
Lemma executePdcGraphQLQuery_bodyUsed query variables w :
  bodyUsed (snd (executePdcGraphQLQuery query variables w)) =
  match upstream (request_of query variables) with
  | Rejected _ => bodyUsed w
  | Fulfilled r => negb (null_body_status (status r))
  end.
Proof.
  walk_forwarder variables ltac:(reflexivity).
Qed.

(** A call started in another world returns the same value. *)
Lemma result_of_any_world query variables w1 w2 :
  result_of query variables w1 = result_of query variables w2.
Proof.
  rewrite !executePdcGraphQLQuery_paths. reflexivity.
Qed.

(** A call returns a value. *)
Lemma result_of_normal query variables w :
  exists envelope, result_of query variables w = Normal envelope.
Proof.
  rewrite executePdcGraphQLQuery_paths.
  destruct (upstream (request_of query variables)); eexists; reflexivity.
Qed.

(** ** More on the forwarder and the tool handler *)

(** X1: what a call returns, the request it sends and the lines it logs do
    not depend on the world it starts in: not on the log, not on earlier
    requests, not on a body read before. *)
Theorem call_independent_of_world :
  forall query variables,
  exists envelope,
  forall w,
    result_of query variables w = Normal envelope /\
    sent (snd (executePdcGraphQLQuery query variables w)) =
      (sent w ++ [request_of query variables])%list /\
    log (snd (executePdcGraphQLQuery query variables w)) =
      (log w ++ logged query variables)%list.
Proof.
  intros query variables.
  destruct (result_of_normal query variables initial) as [envelope Hres].
  exists envelope. intros w. split; [|split].
  - rewrite (result_of_any_world query variables w initial). exact Hres.
  - apply executePdcGraphQLQuery_sent.
  - apply executePdcGraphQLQuery_log.
Qed.

(** X2: the same call made twice in a row returns the same value both times
    and sends the same request twice; nothing is cached between calls. *)
Theorem repeated_call_repeats :
  forall query variables w,
  exists envelope w2,
    (first <- executePdcGraphQLQuery query variables ;;
     second <- executePdcGraphQLQuery query variables ;;
     ret (first, second)) w = (Normal (envelope, envelope), w2) /\
    sent w2 =
      (sent w ++ [request_of query variables; request_of query variables])%list.
Proof.
  intros query variables w.
  destruct (result_of_normal query variables initial) as [envelope Hres].
  assert (Hall : forall w', fst (executePdcGraphQLQuery query variables w') = Normal envelope).
  { intros w'. change (result_of query variables w' = Normal envelope).
    rewrite (result_of_any_world query variables w' initial). exact Hres. }
  pose proof (Hall w) as H1.
  pose proof (executePdcGraphQLQuery_sent query variables w) as Hs1.
  unfold bind, ret.
  destruct (executePdcGraphQLQuery query variables w) as [c1 w1].
  simpl in H1, Hs1. subst c1.
  pose proof (Hall w1) as H2.
  pose proof (executePdcGraphQLQuery_sent query variables w1) as Hs2.
  destruct (executePdcGraphQLQuery query variables w1) as [c2 w2].
  simpl in H2, Hs2. subst c2.
  exists envelope, w2. split; [reflexivity|].
  rewrite Hs2, Hs1, <- app_assoc. reflexivity.
Qed.

(** X3: an error envelope built from a response reports that response's
    status as [statusCode]: for a response that does not declare JSON, for a
    parsed body with a status outside 200..299, and for a body that does not
    parse when its text can be read again, as it can for a response without
    a body. *)
Theorem statusCode_is_response_status :
  forall query variables w r,
    upstream (request_of query variables) = Fulfilled r ->
    (declares_json (headers_get r "content-type") = false \/
     (exists responseBody,
        JSON_parse (body r) = Normal responseBody /\ Response_ok r = false) \/
     (exists e, JSON_parse (body r) = Abrupt e /\
                (consumed = Replays \/ null_body_status (status r) = true))) ->
    exists envelope,
      result_of query variables w = Normal envelope /\
      error_extension "statusCode" envelope = Some (JNumber_of_N (status r)).
Proof.
  intros query variables w r Hup Hcase.
  rewrite executePdcGraphQLQuery_paths, Hup.
  eexists. split; [reflexivity|].
  destruct (declares_json (headers_get r "content-type")); [|reflexivity].
  destruct Hcase as [Hct | [(responseBody & Hparse & Hok) | (e & Hparse & Hrt)]].
  - discriminate.
  - rewrite Hparse, Hok. reflexivity.
  - rewrite Hparse. destruct Hrt as [Hrt|Hnull].
    + rewrite Hrt. destruct (null_body_status (status r)); reflexivity.
    + rewrite Hnull. reflexivity.
Qed.


(** X6: whenever a response with a body arrives, the call reads that body,
    on every path: passed through, HTTP error, not JSON, not parsed. *)
Theorem response_body_always_read :
  forall query variables w r,
    upstream (request_of query variables) = Fulfilled r ->
    null_body_status (status r) = false ->
    bodyUsed (snd (executePdcGraphQLQuery query variables w)) = true.
Proof.
  intros query variables w r Hup Hnull.
  rewrite executePdcGraphQLQuery_bodyUsed, Hup, Hnull. reflexivity.
Qed.

(** X7: a call keeps the lines the log had and adds two or three: first the
    line that announces the request, last, unless the body is passed
    through, a line about the failure. *)
Theorem log_grows_by_two_or_three_lines :
  forall query variables w,
  exists lines,
    log (snd (executePdcGraphQLQuery query variables w)) = (log w ++ lines)%list /\
    (2 <= List.length lines <= 3)%nat /\
    hd_error lines =
      Some "Making GraphQL request to: https://pdc.cancer.gov/graphql" /\
    (List.length lines = 2%nat <->
     (exists e, upstream (request_of query variables) = Rejected e) \/
     (exists r responseBody,
        upstream (request_of query variables) = Fulfilled r /\
        declares_json (headers_get r "content-type") = true /\
        JSON_parse (body r) = Normal responseBody /\
        Response_ok r = true)).
Proof.
  intros query variables w.
  exists (logged query variables).
  split; [apply executePdcGraphQLQuery_log|].
  unfold logged.
  destruct (upstream (request_of query variables)) as [e|r] eqn:Hup.
  - split; [simpl; lia|]. split; [reflexivity|].
    split; [intros _; left; exists e; reflexivity | reflexivity].
  - destruct (declares_json (headers_get r "content-type")) eqn:Hct.
    + destruct (JSON_parse (body r)) as [responseBody|e] eqn:Hparse.
      * destruct (Response_ok r) eqn:Hok.
        -- split; [simpl; lia|]. split; [reflexivity|].
           split; [|reflexivity].
           intros _. right. exists r, responseBody. repeat split; assumption.
        -- split; [simpl; lia|]. split; [reflexivity|].
           split; [discriminate|].
           intros [[e H]|(r' & b & H & _ & _ & Hok')]; [discriminate|].
           injection H as <-. congruence.
      * destruct (null_body_status (status r)); [|destruct consumed as [err|]];
          (split; [simpl; lia|]; split; [reflexivity|]; split; [discriminate|];
           intros [[e' H]|(r' & b & H & _ & Hparse' & _)]; [discriminate|];
           injection H as <-; congruence).
    + split; [simpl; lia|]. split; [reflexivity|].
      split; [discriminate|].
      intros [[e H]|(r' & b & H & Hct' & _)]; [discriminate|].
      injection H as <-. congruence.
Qed.

(** X8: in the envelope for a response that does not declare JSON,
    [contentType] is [null] exactly when the header is absent, and the
    header's own text otherwise, the empty text included. *)
Theorem contentType_null_iff_absent :
  forall query variables w r,
    upstream (request_of query variables) = Fulfilled r ->
    declares_json (headers_get r "content-type") = false ->
    exists envelope,
      result_of query variables w = Normal envelope /\
      (error_extension "contentType" envelope = Some JNull <->
       headers_get r "content-type" = None) /\
      (forall ct, headers_get r "content-type" = Some ct ->
                  error_extension "contentType" envelope = Some (JString ct)).
Proof.
  intros query variables w r Hup Hct.
  rewrite (result_of_non_json query variables w r Hup Hct).
  eexists. split; [reflexivity|].
  destruct (headers_get r "content-type") as [ct|]; simpl.
  - split; [split; discriminate|]. intros ct' H. injection H as <-. reflexivity.
  - split; [split; reflexivity|]. discriminate.
Qed.

(** A text no longer than [n] is its own first [n] characters. *)
Lemma substring_0_all (n : nat) (s : string) :
  (String.length s <= n)%nat -> substring 0 n s = s.
Proof.
  revert s. induction n as [|n IH]; intros [|c s] Hlen; simpl in *;
    try reflexivity; try lia.
  rewrite IH by lia. reflexivity.
Qed.

(** X9: the tool handler never throws; it returns one text block whose text
    is the indented serialization of what the forwarder returns for the same
    input, error envelopes included, and it sends that one request. *)
Theorem tool_result_wraps_envelope :
  forall query variables w,
  exists envelope w',
    pdc_graphql_query query variables w =
      (Normal (JObject [("content",
                         JArray [JObject [("type", JString "text");
                                          ("text",
                                           JString (JSON_stringify_indented envelope))]])]),
       w') /\
    result_of query variables w = Normal envelope /\
    sent w' = (sent w ++ [request_of query variables])%list.
Proof.
  intros query variables w.
  destruct (result_of_normal query variables initial) as [envelope Hres].
  assert (Hall : forall w', fst (executePdcGraphQLQuery query variables w') = Normal envelope).
  { intros w'. change (result_of query variables w' = Normal envelope).
    rewrite (result_of_any_world query variables w' initial). exact Hres. }
  exists envelope.
  unfold pdc_graphql_query, bind, console_error, ret.
  destruct variables as [vars|]; cbv beta iota;
    (match goal with
     | |- context [executePdcGraphQLQuery ?q ?v ?w0] =>
         pose proof (Hall w0) as H1;
         pose proof (executePdcGraphQLQuery_sent q v w0) as Hs;
         destruct (executePdcGraphQLQuery q v w0) as [c w1]
     end);
    simpl in H1, Hs; subst c; exists w1;
    (split; [reflexivity | split; [exact (Hall w) | exact Hs]]).
Qed.

(** X10: the handler logs, before the forwarder's own lines, the first 200
    characters of the query followed by three dots, then, exactly when
    variables are given, the first 150 characters of their serialization
    followed by three dots. A query of at most 200 characters is logged
    whole, still followed by the dots. *)
Theorem tool_log_lines :
  forall query variables w,
    log (snd (pdc_graphql_query query variables w)) =
      (log w ++
       ("Executing pdc_graphql_query with query: "
        ++ substring 0 200 query ++ "...")%string ::
       match variables with
       | Some vars =>
           [("With variables: "
             ++ substring 0 150 (JSON_stringify (JObject vars)) ++ "...")%string]
       | None => []
       end ++ logged query variables)%list /\
    (String.length (substring 0 200 query) <= 200)%nat /\
    ((String.length query <= 200)%nat -> substring 0 200 query = query).
Proof.
  intros query variables w. split; [|split].
  - unfold pdc_graphql_query.
    change (slice query 0 200) with (slice query 0 (Z.of_nat 200)).
    rewrite slice_0.
    unfold bind, console_error, ret.
    destruct variables as [vars|]; cbv beta iota;
      try (change (slice (JSON_stringify (JObject vars)) 0 150)
             with (slice (JSON_stringify (JObject vars)) 0 (Z.of_nat 150));
           rewrite slice_0);
      (match goal with
       | |- context [executePdcGraphQLQuery ?q ?v ?w0] =>
           pose proof (executePdcGraphQLQuery_log q v w0) as Hl;
           destruct (executePdcGraphQLQuery q v w0) as [c w1]
       end);
      simpl in Hl; destruct c; simpl; rewrite Hl;
      repeat rewrite <- app_assoc; reflexivity.
  - rewrite substring_0_length. apply Nat.le_min_l.
  - apply substring_0_all.
Qed.

End Forwarder.

(** ** The forwarder on concrete responses *)

(** C2 at the response [200], [application/json], [{"data": {"x": 1}}]. *)
Lemma pass_through_unmodified_witness :
  (200 <= status json_200 <= 299)%N /\
  body json_200 = data_x1_text /\
  result_of sample_parse sample_stringify (answers json_200) (RejectsWith body_used)
    "{ x }" None initial = Normal data_x1.
Proof.
  split; [simpl; lia|]. split; [reflexivity|].
  apply (pass_through_unmodified sample_parse sample_stringify (answers json_200)
           (RejectsWith body_used) "{ x }" None initial json_200 data_x1).
  - reflexivity.
  - simpl; lia.
  - reflexivity.
  - reflexivity.
Defined.

(** C3 as the specification words it fails at the response [500],
    [application/json], [{"message": "boom"}]: the message is not
    ["API Error 500"]. *)
Lemma http_error_message_counterexample :
  ~ (200 <= status json_500 <= 299)%N /\
  declares_json (headers_get json_500 "content-type") = true /\
  sample_parse (body json_500) = Normal boom /\
  result_of sample_parse sample_stringify (answers json_500) (RejectsWith body_used)
    "{ q }" None initial <> Normal (spec_http_error_envelope 500 boom).
Proof.
  split; [simpl; lia|]. split; [reflexivity|]. split; [reflexivity|].
  vm_compute. discriminate.
Qed.

(** C3, amended, at the same response. *)
Lemma http_error_envelope_witness :
  result_of sample_parse sample_stringify (answers json_500) (RejectsWith body_used)
    "{ q }" None initial =
  Normal (error_envelope "NCI PDC API HTTP Error 500"
            [("statusCode", JNumber_of_N 500); ("responseBody", boom)]).
Proof.
  apply (http_error_envelope sample_parse sample_stringify (answers json_500)
           (RejectsWith body_used) "{ q }" None initial json_500 boom).
  - reflexivity.
  - simpl; lia.
  - reflexivity.
  - reflexivity.
Defined.

(** C4 as the specification words it fails at an HTML page sent with status
    200: the message is not
    ["API Error 200: Non-JSON response received."]. *)
Lemma non_json_message_counterexample :
  declares_json (headers_get html_200 "content-type") = false /\
  result_of sample_parse sample_stringify (answers html_200) (RejectsWith body_used)
    "{ q }" None initial <>
  Normal (spec_non_json_envelope 200 (headers_get html_200 "content-type") (body html_200)).
Proof.
  split; [reflexivity|]. vm_compute. discriminate.
Qed.

(** C4, amended, at a response without a content-type header. *)
Lemma non_json_envelope_witness :
  headers_get bare_502 "content-type" = None /\
  result_of sample_parse sample_stringify (answers bare_502) (RejectsWith body_used)
    "{ q }" None initial =
  Normal (error_envelope "NCI PDC API Error 502: Non-JSON response received."
            [("statusCode", JNumber_of_N 502);
             ("contentType", JNull);
             ("responseText", JString "Bad Gateway")]).
Proof.
  split; [reflexivity|].
  apply (non_json_envelope sample_parse sample_stringify (answers bare_502)
           (RejectsWith body_used) "{ q }" None initial bare_502).
  - reflexivity.
  - reflexivity.
Defined.

(** C5: at the response [200], [application/json; charset=utf-8] with an
    HTML page as its body, on a runtime that rejects the second read of a
    body with whatever [TypeError], the forwarder does not return the parse
    failure envelope, neither with the message of the specification nor
    with the message the code builds: it returns the client error envelope
    with the runtime's message, without status and without text. *)
Theorem parse_failure_reported_as_client_error :
  declares_json (headers_get broken_json_200 "content-type") = true /\
  null_body_status (status broken_json_200) = false /\
  sample_parse (body broken_json_200) =
    Abrupt (ErrorObject "Unexpected token < in JSON at position 0") /\
  forall err,
    result_of sample_parse sample_stringify (answers broken_json_200) (RejectsWith err)
      "{ q }" None initial =
    Normal (error_envelope (message_of err) [("clientError", JBool true)]) /\
    result_of sample_parse sample_stringify (answers broken_json_200) (RejectsWith err)
      "{ q }" None initial <>
    Normal (spec_parse_failure_envelope 200 (body broken_json_200)) /\
    result_of sample_parse sample_stringify (answers broken_json_200) (RejectsWith err)
      "{ q }" None initial <>
    Normal (error_envelope "NCI PDC API Error 200: Failed to parse JSON response."
              [("statusCode", JNumber_of_N 200);
               ("responseText", JString "<html>oops</html>")]).
Proof.
  split; [reflexivity|]. split; [reflexivity|]. split; [reflexivity|].
  intros err.
  assert (Hres :
    result_of sample_parse sample_stringify (answers broken_json_200) (RejectsWith err)
      "{ q }" None initial =
    Normal (error_envelope (message_of err) [("clientError", JBool true)])).
  { apply (result_of_unparsed_rejected sample_parse sample_stringify
             (answers broken_json_200) (RejectsWith err) "{ q }" None initial
             broken_json_200 (ErrorObject "Unexpected token < in JSON at position 0") err);
      reflexivity. }
  split; [exact Hres|].
  rewrite Hres. unfold spec_parse_failure_envelope, error_envelope.
  split; intros H; injection H as _ H; discriminate H.
Qed.

(** A response without a body that declares JSON, status 204: the empty
    text does not parse, it can still be read, and the parse failure
    envelope is what comes back, on either runtime. *)
Example parse_failure_envelope_without_body :
  result_of sample_parse sample_stringify (answers json_204) (RejectsWith body_used)
    "{ q }" None initial =
  Normal (error_envelope "NCI PDC API Error 204: Failed to parse JSON response."
            [("statusCode", JNumber_of_N 204); ("responseText", JString "")]) /\
  result_of sample_parse sample_stringify (answers json_204) (RejectsWith body_unusable)
    "{ q }" None initial =
  Normal (error_envelope "NCI PDC API Error 204: Failed to parse JSON response."
            [("statusCode", JNumber_of_N 204); ("responseText", JString "")]).
Proof. split; reflexivity. Qed.

(** C6 at a refused connection, thrown as an [Error] and as a plain string. *)
Lemma client_error_envelope_witness :
  result_of sample_parse sample_stringify
    (unreachable (ErrorObject "connect ECONNREFUSED")) (RejectsWith body_used)
    "{ q }" None initial =
  Normal (error_envelope "connect ECONNREFUSED" [("clientError", JBool true)]) /\
  result_of sample_parse sample_stringify
    (unreachable (NonError "timeout")) (RejectsWith body_used)
    "{ q }" (Some [("caseId", JString "01BR001")]) initial =
  Normal (error_envelope "timeout" [("clientError", JBool true)]).
Proof.
  split.
  - apply (proj1 (client_error_envelope sample_parse sample_stringify
                    (unreachable (ErrorObject "connect ECONNREFUSED"))
                    (RejectsWith body_used) "{ q }" None initial
                    (ErrorObject "connect ECONNREFUSED") eq_refl)).
    reflexivity.
  - apply (proj2 (client_error_envelope sample_parse sample_stringify
                    (unreachable (NonError "timeout"))
                    (RejectsWith body_used) "{ q }"
                    (Some [("caseId", JString "01BR001")]) initial
                    (NonError "timeout") eq_refl)).
    reflexivity.
Defined.

(** C7: the envelope for a response that does not declare JSON carries a
    [responseText], the prefix of the body of length min(length of the
    body, 1000), so 1000 characters for a body of 1001. For a body that is
    declared as JSON and does not parse, the code does not do what the
    claim says: at a body of 1001 letters, on a runtime that rejects the
    second read of a body, the envelope carries no [responseText]. *)
Theorem responseText_truncated_where_reported :
  (forall parse stringify network rereading query variables w r,
     network (request_of stringify query variables) = Fulfilled r ->
     declares_json (headers_get r "content-type") = false ->
     exists envelope text,
       result_of parse stringify network rereading query variables w = Normal envelope /\
       error_extension "responseText" envelope = Some (JString text) /\
       text = substring 0 (Nat.min (String.length (body r)) 1000) (body r) /\
       String.length text = Nat.min (String.length (body r)) 1000 /\
       (String.length (body r) = 1001%nat -> String.length text = 1000%nat)) /\
  (String.length (body long_broken_json_503) = 1001%nat /\
   declares_json (headers_get long_broken_json_503 "content-type") = true /\
   (exists e, sample_parse (body long_broken_json_503) = Abrupt e) /\
   forall err,
   exists envelope,
     result_of sample_parse sample_stringify (answers long_broken_json_503)
       (RejectsWith err) "{ q }" None initial = Normal envelope /\
     error_extension "responseText" envelope = None).
Proof.
  split.
  - intros parse stringify network rereading query variables w r Hup Hct.
    rewrite (result_of_non_json parse stringify network rereading query variables w r Hup Hct).
    eexists. eexists. split; [reflexivity|]. split; [reflexivity|].
    rewrite substring_0_min, substring_0_length, Nat.min_comm.
    repeat split. intros Hlen. rewrite Hlen. reflexivity.
  - split; [reflexivity|]. split; [reflexivity|].
    split; [eexists; vm_compute; reflexivity|].
    intros err.
    exists (error_envelope (message_of err) [("clientError", JBool true)]).
    split; [|reflexivity].
    apply (result_of_unparsed_rejected sample_parse sample_stringify
             (answers long_broken_json_503) (RejectsWith err) "{ q }" None initial
             long_broken_json_503
             (ErrorObject "Unexpected token < in JSON at position 0") err);
      reflexivity.
Qed.

(** C7 at an HTML page of 1001 letters: the forwarder's envelope carries the
    first 1000. *)
Lemma responseText_truncated_where_reported_witness :
  String.length (body long_html_200) = 1001%nat /\
  exists envelope text,
    result_of sample_parse sample_stringify (answers long_html_200) (RejectsWith body_used)
      "{ q }" None initial = Normal envelope /\
    error_extension "responseText" envelope = Some (JString text) /\
    text = substring 0 (Nat.min (String.length (body long_html_200)) 1000)
             (body long_html_200) /\
    String.length text = Nat.min (String.length (body long_html_200)) 1000 /\
    (String.length (body long_html_200) = 1001%nat -> String.length text = 1000%nat).
Proof.
  split; [reflexivity|].
  apply (proj1 responseText_truncated_where_reported sample_parse sample_stringify
           (answers long_html_200) (RejectsWith body_used) "{ q }" None initial
           long_html_200).
  - reflexivity.
  - reflexivity.
Defined.


(** C1 at a response that is declared as JSON and is an HTML page, on a
    runtime that rejects the second read of the body: the call still
    completes normally, with an error envelope. *)
Lemma executePdcGraphQLQuery_returns_envelope_witness :
  exists envelope w',
    executePdcGraphQLQuery sample_parse sample_stringify (answers broken_json_200)
      (RejectsWith body_used) "{ q }" None initial = (Normal envelope, w') /\
    ((exists r,
        answers broken_json_200 (request_of sample_stringify "{ q }" None) = Fulfilled r /\
        declares_json (headers_get r "content-type") = true /\
        Response_ok r = true /\
        sample_parse (body r) = Normal envelope)
     \/
     (exists message extensions,
        envelope = error_envelope message extensions /\
        get_prop "errors" envelope =
          Some (JArray [JObject [("message", JString message);
                                 ("extensions", JObject extensions)]]))).
Proof.
  exact (executePdcGraphQLQuery_returns_envelope sample_parse sample_stringify
           (answers broken_json_200) (RejectsWith body_used) "{ q }" None initial).
Defined.

(** C8 at a query sent with one variable. *)
Lemma request_body_fields_witness :
  exists bodyData,
    sent (snd (executePdcGraphQLQuery sample_parse sample_stringify (answers json_200)
                 (RejectsWith body_used) "query($id: String) { x }"
                 (Some [("id", JString "01BR001")]) initial)) =
      [request_of sample_stringify "query($id: String) { x }"
         (Some [("id", JString "01BR001")])] /\
    req_body (request_of sample_stringify "query($id: String) { x }"
                (Some [("id", JString "01BR001")])) =
      sample_stringify (JObject bodyData) /\
    lookup "query" bodyData = Some (JString "query($id: String) { x }") /\
    lookup "variables" bodyData = Some (JObject [("id", JString "01BR001")]) /\
    (lookup "variables" bodyData <> None <->
     Some [("id", JString "01BR001")] <> None) /\
    (forall key, key <> "query" -> key <> "variables" -> lookup key bodyData = None).
Proof.
  exact (request_body_fields sample_parse sample_stringify (answers json_200)
           (RejectsWith body_used) "query($id: String) { x }"
           (Some [("id", JString "01BR001")]) initial).
Defined.

(** A call without variables and a call with variables, run on the doubles:
    what goes on the wire and what comes back. *)
Example call_without_variables :
  executePdcGraphQLQuery sample_parse sample_stringify (answers json_200)
    (RejectsWith body_used) "{ x }" None initial =
  (Normal data_x1,
   {| sent := [request_of sample_stringify "{ x }" None];
      bodyUsed := true;
      log := ["Making GraphQL request to: https://pdc.cancer.gov/graphql";
              "NCI PDC API response status: 200"] |}).
Proof. reflexivity. Qed.

Example call_with_variables :
  lookup "variables"
    [("query", JString "query($id: String) { x }");
     ("variables", JObject [("id", JString "01BR001")])] =
  Some (JObject [("id", JString "01BR001")]) /\
  sent (snd (executePdcGraphQLQuery sample_parse sample_stringify
               (unreachable (ErrorObject "getaddrinfo ENOTFOUND")) (RejectsWith body_used)
               "query($id: String) { x }" (Some [("id", JString "01BR001")]) initial)) =
  [request_of sample_stringify "query($id: String) { x }"
     (Some [("id", JString "01BR001")])].
Proof. split; reflexivity. Qed.

(** ** The router *)

(** X13: a request whose path is ["/sse"] or starts with ["/sse/"] is handed
    to the SSE transport mounted at ["/sse"]; nothing is logged and the
    world is left as it was. *)
Lemma fetch_serves_sse (pathname : string) (w : World) :
  pathname = "/sse" \/ (exists rest, pathname = "/sse/" ++ rest) ->
  Worker.fetch pathname w = (Normal (Worker.ServeSSE "/sse"), w).
Proof.
  intros [->|[rest ->]]; [reflexivity|].
  unfold Worker.fetch.
  rewrite (startsWith_app "/sse/" rest), orb_true_r. reflexivity.
Qed.

(** C10: a request whose path is not ["/sse"] and does not start with
    ["/sse/"] is answered with status 404, content-type [text/plain] and the
    fixed body, which names ["/sse"], and is not handed to the SSE
    transport; a request whose path is ["/sse"] or starts with ["/sse/"] is
    handed to the SSE transport mounted at ["/sse"]. *)
Theorem fetch_sse_or_not_found :
  forall pathname w,
    (pathname <> "/sse" ->
     (forall rest, pathname <> "/sse/" ++ rest) ->
     fst (Worker.fetch pathname w) =
       Normal (Worker.Respond
                 {| Worker.reply_status := 404;
                    Worker.reply_headers := [("Content-Type", "text/plain")];
                    Worker.reply_body := Worker.not_found_body |}) /\
     includes Worker.not_found_body "- /sse" = true /\
     (forall mount, fst (Worker.fetch pathname w) <> Normal (Worker.ServeSSE mount))) /\
    (pathname = "/sse" \/ (exists rest, pathname = "/sse/" ++ rest) ->
     fst (Worker.fetch pathname w) = Normal (Worker.ServeSSE "/sse")).
Proof.
  intros pathname w. split.
  - intros Hne Hsub.
    assert (Hfetch : fst (Worker.fetch pathname w) =
        Normal (Worker.Respond
                  {| Worker.reply_status := 404;
                     Worker.reply_headers := [("Content-Type", "text/plain")];
                     Worker.reply_body := Worker.not_found_body |})).
    { unfold Worker.fetch.
      apply String.eqb_neq in Hne. rewrite Hne.
      destruct (startsWith pathname "/sse/") eqn:Hstart.
      - apply startsWith_spec in Hstart. destruct Hstart as [rest Hrest].
        exfalso. exact (Hsub rest Hrest).
      - reflexivity. }
    split; [exact Hfetch|]. split; [reflexivity|].
    intros mount. rewrite Hfetch. discriminate.
  - intros [->|[rest ->]]; [reflexivity|].
    unfold Worker.fetch.
    rewrite (startsWith_app "/sse/" rest), orb_true_r. reflexivity.
Qed.

(** C10 at the paths ["/mcp"] and ["/ssereader"], which get the 404, and at
    ["/sse"] and ["/sse/message"], which go to the SSE transport. *)
Lemma fetch_sse_or_not_found_witness :
  fst (Worker.fetch "/mcp" initial) =
    Normal (Worker.Respond
              {| Worker.reply_status := 404;
                 Worker.reply_headers := [("Content-Type", "text/plain")];
                 Worker.reply_body := Worker.not_found_body |}) /\
  (forall mount, fst (Worker.fetch "/ssereader" initial) <> Normal (Worker.ServeSSE mount)) /\
  fst (Worker.fetch "/sse" initial) = Normal (Worker.ServeSSE "/sse") /\
  fst (Worker.fetch "/sse/message" initial) = Normal (Worker.ServeSSE "/sse").
Proof.
  split; [|split; [|split]].
  - apply (proj1 (fetch_sse_or_not_found "/mcp" initial)).
    + discriminate.
    + intros rest. discriminate.
  - apply (proj1 (fetch_sse_or_not_found "/ssereader" initial)).
    + discriminate.
    + intros rest. discriminate.
  - apply (proj2 (fetch_sse_or_not_found "/sse" initial)).
    left. reflexivity.
  - apply (proj2 (fetch_sse_or_not_found "/sse/message" initial)).
    right. exists "message". reflexivity.
Defined.

(** X11: for every path the router completes normally and contacts no
    upstream; a request goes to the SSE transport mounted at ["/sse"]
    exactly when its path is ["/sse"] or starts with ["/sse/"], and gets the
    404 response otherwise. *)
Theorem fetch_routes_by_path :
  forall pathname w,
  exists routed w',
    Worker.fetch pathname w = (Normal routed, w') /\
    sent w' = sent w /\
    (routed = Worker.ServeSSE "/sse" <->
     pathname = "/sse" \/ exists rest, pathname = "/sse/" ++ rest) /\
    (routed <> Worker.ServeSSE "/sse" ->
     routed = Worker.Respond
                {| Worker.reply_status := 404;
                   Worker.reply_headers := [("Content-Type", "text/plain")];
                   Worker.reply_body := Worker.not_found_body |}).
Proof.
  intros pathname w. unfold Worker.fetch.
  destruct (String.eqb pathname "/sse") eqn:Heq.
  - apply String.eqb_eq in Heq.
    eexists. exists w. split; [reflexivity|]. split; [reflexivity|].
    split; [split; [intros _; left; exact Heq | reflexivity]|].
    intros H. exfalso. apply H. reflexivity.
  - destruct (startsWith pathname "/sse/") eqn:Hstart.
    + apply startsWith_spec in Hstart.
      eexists. exists w. split; [reflexivity|]. split; [reflexivity|].
      split; [split; [intros _; right; exact Hstart | reflexivity]|].
      intros H. exfalso. apply H. reflexivity.
    + eexists. eexists. split; [reflexivity|]. split; [reflexivity|].
      split; [|reflexivity].
      split; [discriminate|].
      intros [H|[rest H]].
      * apply String.eqb_neq in Heq. contradiction.
      * assert (Hs : startsWith pathname "/sse/" = true)
          by (apply startsWith_spec; exists rest; exact H).
        congruence.
Qed.

(** X12: a request for a path the router does not serve adds one line to the
    log, and that line contains the requested path; the requests sent and
    the body flag are left as they were. *)
Theorem fetch_logs_unknown_path :
  forall pathname w,
    pathname <> "/sse" ->
    (forall rest, pathname <> "/sse/" ++ rest) ->
    exists line,
      snd (Worker.fetch pathname w) =
        {| sent := sent w; bodyUsed := bodyUsed w; log := (log w ++ [line])%list |} /\
      includes line pathname = true.
Proof.
  intros pathname w Hne Hsub.
  exists ("NCI PDC MCP Server. Requested path " ++ pathname
          ++ " not found. Listening for SSE on /sse.").
  split.
  - unfold Worker.fetch.
    apply String.eqb_neq in Hne. rewrite Hne.
    destruct (startsWith pathname "/sse/") eqn:Hstart.
    + apply startsWith_spec in Hstart. destruct Hstart as [rest Hrest].
      exfalso. exact (Hsub rest Hrest).
    + reflexivity.
  - apply includes_spec.
    exists "NCI PDC MCP Server. Requested path ",
           " not found. Listening for SSE on /sse.".
    reflexivity.
Qed.

(** ** The extras on concrete inputs *)

(** X3 at the response [500], [application/json], [{"message": "boom"}]. *)
Lemma statusCode_is_response_status_witness :
  exists envelope,
    result_of sample_parse sample_stringify (answers json_500) (RejectsWith body_used)
      "{ q }" None initial = Normal envelope /\
    error_extension "statusCode" envelope = Some (JNumber_of_N 500).
Proof.
  apply (statusCode_is_response_status sample_parse sample_stringify (answers json_500)
           (RejectsWith body_used) "{ q }" None initial json_500).
  - reflexivity.
  - right. left. exists boom. split; reflexivity.
Defined.


(** X6 at a response that is passed through and at one that is not JSON. *)
Lemma response_body_always_read_witness :
  bodyUsed (snd (executePdcGraphQLQuery sample_parse sample_stringify (answers json_200)
                   (RejectsWith body_used) "{ x }" None initial)) = true /\
  bodyUsed (snd (executePdcGraphQLQuery sample_parse sample_stringify (answers html_200)
                   (RejectsWith body_used) "{ x }" None initial)) = true.
Proof.
  split.
  - apply (response_body_always_read sample_parse sample_stringify
             (answers json_200) (RejectsWith body_used) "{ x }" None initial json_200).
    + reflexivity.
    + reflexivity.
  - apply (response_body_always_read sample_parse sample_stringify
             (answers html_200) (RejectsWith body_used) "{ x }" None initial html_200).
    + reflexivity.
    + reflexivity.
Defined.

(** X8 at a response without a content-type header. *)
Lemma contentType_null_iff_absent_witness :
  exists envelope,
    result_of sample_parse sample_stringify (answers bare_502) (RejectsWith body_used)
      "{ q }" None initial = Normal envelope /\
    (error_extension "contentType" envelope = Some JNull <->
     headers_get bare_502 "content-type" = None) /\
    (forall ct, headers_get bare_502 "content-type" = Some ct ->
                error_extension "contentType" envelope = Some (JString ct)).
Proof.
  apply (contentType_null_iff_absent sample_parse sample_stringify (answers bare_502)
           (RejectsWith body_used) "{ q }" None initial bare_502).
  - reflexivity.
  - reflexivity.
Defined.

(** X12 at the path ["/mcp"]. *)
Lemma fetch_logs_unknown_path_witness :
  exists line,
    snd (Worker.fetch "/mcp" initial) =
      {| sent := []; bodyUsed := false; log := [line] |} /\
    includes line "/mcp" = true.
Proof.
  apply (fetch_logs_unknown_path "/mcp" initial).
  - discriminate.
  - intros rest. discriminate.
Defined.

(** X13 at the paths ["/sse"] and ["/sse/message"]. *)
Lemma fetch_serves_sse_witness :
  Worker.fetch "/sse" initial = (Normal (Worker.ServeSSE "/sse"), initial) /\
  Worker.fetch "/sse/message" initial = (Normal (Worker.ServeSSE "/sse"), initial).
Proof.
  split.
  - apply (fetch_serves_sse "/sse" initial). left. reflexivity.
  - apply (fetch_serves_sse "/sse/message" initial). right.
    exists "message". reflexivity.
Defined.

(** The tool handler on the doubles: a query with one variable against an
    upstream that cannot be reached. *)
Example tool_call_unreachable :
  pdc_graphql_query sample_parse sample_stringify
    (unreachable (ErrorObject "connect ECONNREFUSED")) (RejectsWith body_used)
    sample_indented "query($id: String) { x }" (Some [("id", JString "01BR001")]) initial =
  (Normal (JObject [("content",
                     JArray [JObject [("type", JString "text");
                                      ("text", JString "<indented result>")]])]),
   {| sent := [request_of sample_stringify "query($id: String) { x }"
                 (Some [("id", JString "01BR001")])];
      bodyUsed := false;
      log := ["Executing pdc_graphql_query with query: query($id: String) { x }...";
              "With variables: <request body>...";
              "Making GraphQL request to: https://pdc.cancer.gov/graphql";
              "Client-side error during NCI PDC GraphQL request: connect ECONNREFUSED"] |}).
Proof. reflexivity. Qed.
